(** * The model-deployment skeleton: a Flask application with two routes

    Source: [examples/model-deployment-skeleton/app.py].

    The program is eighteen lines of Python on top of Flask.  Its own code
    is two view functions, [health] and [predict], and three calls into the
    framework: [Flask(__name__)], [app.route('/health')] and
    [app.route('/predict', methods=['POST','GET'])].  What a client observes
    is decided by those view functions together with the part of Flask and
    Werkzeug that the three calls configure: rule registration, URL
    matching, the request properties [method], [is_json] and [get_json()],
    [jsonify], and the conversion of exceptions into responses.

    The development has these layers:
    - [PyStr] and [Json]: string methods, and the Python values
      [json.loads] produces and [jsonify] accepts;
    - [Library]: the library functions the model leaves open;
    - [Werkzeug]: the request wrapper and the URL map, transcribed from the
      framework for the rules this program registers (static paths, no
      converters, no trailing slash);
    - [FlaskCore]: the application object, rule registration and request
      dispatch, with the global data of the module threaded through every
      view call;
    - section [App]: the program itself, line by line.

    Three library functions are parameters, gathered in a [Library]: the
    JSON decoder [json.loads], with its three outcomes (a value, a
    [ValueError], a [RecursionError] on input nested too deep); whether the
    encoder [json.dumps] returns on a nested value; and the media type
    Werkzeug reads off a Content-Type header.  Every theorem holds for
    every such library; [Sample.lib] instantiates it for the concrete
    examples.

    The rule for static files that [Flask(__name__)] registers is not
    modelled: a request under [/static/] has the outcome [StaticFiles], and
    no theorem says more about it.  Response headers are not modelled. *)

From Stdlib Require Import String Ascii List ListSet ZArith Bool Lia.
From Stdlib Require Import Floats.SpecFloat.
Import ListNotations.
Local Open Scope string_scope.
Local Open Scope Z_scope.

(** ** Python string methods *)

Module PyStr.

(** [c.upper()] and [c.lower()] on one ASCII character.  HTTP methods and
    media types are ASCII tokens; other characters are left alone. *)
Definition upper_ascii (c : ascii) : ascii :=
  let n := nat_of_ascii c in
  if (andb (Nat.leb 97 n) (Nat.leb n 122)) then ascii_of_nat (n - 32) else c.

Definition lower_ascii (c : ascii) : ascii :=
  let n := nat_of_ascii c in
  if (andb (Nat.leb 65 n) (Nat.leb n 90)) then ascii_of_nat (n + 32) else c.

Fixpoint map (f : ascii -> ascii) (s : string) : string :=
  match s with
  | EmptyString => EmptyString
  | String c s' => String (f c) (map f s')
  end.

Definition upper : string -> string := map upper_ascii.
Definition lower : string -> string := map lower_ascii.

(** [s.lstrip(c)] for a single character [c]. *)
Fixpoint lstrip_char (c : ascii) (s : string) : string :=
  match s with
  | EmptyString => EmptyString
  | String d s' => if Ascii.eqb d c then lstrip_char c s' else s
  end.

Fixpoint rev_acc (s acc : string) : string :=
  match s with
  | EmptyString => acc
  | String c s' => rev_acc s' (String c acc)
  end.

Definition rev (s : string) : string := rev_acc s EmptyString.

(** [s.partition(c)[0]]: the part of [s] before the first [c], all of [s]
    when [c] does not occur. *)
Fixpoint before (c : ascii) (s : string) : string :=
  match s with
  | EmptyString => EmptyString
  | String d s' => if Ascii.eqb d c then EmptyString else String d (before c s')
  end.

Definition startswith (s p : string) : bool := String.prefix p s.

Definition endswith (s p : string) : bool := String.prefix (rev p) (rev s).

End PyStr.

(** ** JSON values

    The Python values [json.loads] returns: [None], [bool], [int] (unbounded),
    [float] (IEEE-754 binary64, kept as its mathematical description),
    [str], [list] and [dict].  A [dict] is kept as the list of its items in
    insertion order. *)

Module Json.

#[local] Set Warnings "-register-all".

Inductive json : Type :=
| JNull
| JBool (b : bool)
| JInt (n : Z)
| JFloat (f : spec_float)
| JStr (s : string)
| JList (l : list json)
| JDict (items : list (string * json)).

(** What a call of [json.loads] does: it returns a value, raises
    [ValueError] (the text is not JSON), or raises [RecursionError] (the
    text is nested deeper than the interpreter can follow). *)
Inductive loaded : Type :=
| Loaded (v : json)
| RaisesValueError
| RaisesRecursionError.

(** [k in d] for a dict value; [False] for every other value. *)
Definition has_key (k : string) (j : json) : bool :=
  match j with
  | JDict items => existsb (fun kv => String.eqb (fst kv) k) items
  | _ => false
  end.

(** A value that is no container, and a value without nesting: a scalar,
    or a list or dict all of whose members are scalars. *)
Definition scalar (j : json) : bool :=
  match j with
  | JList _ | JDict _ => false
  | _ => true
  end.

Definition flat (j : json) : bool :=
  match j with
  | JList l => forallb scalar l
  | JDict items => forallb (fun kv => scalar (snd kv)) items
  | _ => true
  end.

(** The number of container levels of a value. *)
Fixpoint depth (j : json) : nat :=
  match j with
  | JList l => S (fold_right (fun x m => Nat.max (depth x) m) O l)
  | JDict items =>
      S (fold_right (fun kv m => Nat.max (depth (snd kv)) m) O items)
  | _ => O
  end.

End Json.
Export Json.

(** ** The library functions left open

    - [loads]: [json.loads] on the bytes of a body;
    - [encodes]: whether [json.dumps] returns on a value with nesting; it
      raises [RecursionError] on one nested deeper than the interpreter
      can follow;
    - [mimetype_of]: the media type Werkzeug reads off the text of a
      Content-Type header, [parse_options_header(value)[0].lower()]. *)
Record Library : Type := {
  loads : string -> loaded;
  encodes : json -> bool;
  mimetype_of : string -> string
}.

(** ** A library for the examples

    [Sample.loads] decodes the part of JSON the examples below use: the
    literals [null], [true] and [false], integers, strings without escape
    sequences, arrays and objects, with JSON white space between tokens.
    Anything else (fractions, exponents, escapes) is outside its domain and
    is answered with [RaisesValueError].  Containers nested deeper than
    [Sample.recursion_limit] make it raise [RecursionError], as the
    interpreter's recursion limit does for [json.loads]; the same bound
    serves for [json.dumps].  [Sample.mimetype_of] cuts the header at its
    first [;], removes spaces and tabs around what is left and lower-cases
    it.  No theorem depends on these; they only serve to run the model on
    concrete requests. *)

Module Sample.

Definition is_ws (c : ascii) : bool :=
  let n := nat_of_ascii c in
  orb (orb (Nat.eqb n 32) (Nat.eqb n 9)) (orb (Nat.eqb n 10) (Nat.eqb n 13)).

Fixpoint skip_ws (s : string) : string :=
  match s with
  | EmptyString => EmptyString
  | String c s' => if is_ws c then skip_ws s' else s
  end.

(** [expect p s]: what follows [p] in [s], when [s] starts with [p]. *)
Fixpoint expect (p s : string) : option string :=
  match p, s with
  | EmptyString, _ => Some s
  | String a p', String b s' => if Ascii.eqb a b then expect p' s' else None
  | String _ _, EmptyString => None
  end.

Definition digit (c : ascii) : option Z :=
  let n := nat_of_ascii c in
  if andb (Nat.leb 48 n) (Nat.leb n 57) then Some (Z.of_nat (n - 48)) else None.

Fixpoint digits (s : string) (acc : Z) : Z * string :=
  match s with
  | EmptyString => (acc, EmptyString)
  | String c s' =>
      match digit c with
      | Some d => digits s' (10 * acc + d)
      | None => (acc, s)
      end
  end.

(** An integer literal must not run into a fraction or an exponent. *)
Definition int_end (n : Z) (r : string) : option (Z * string) :=
  match r with
  | String "." _ | String "e" _ | String "E" _ => None
  | _ => Some (n, r)
  end.

Definition natural (s : string) : option (Z * string) :=
  match s with
  | String "0" r => int_end 0 r
  | String c _ =>
      match digit c with
      | Some _ => let (n, r) := digits s 0 in int_end n r
      | None => None
      end
  | EmptyString => None
  end.

Definition integer (s : string) : option (Z * string) :=
  match s with
  | String "-" r =>
      match natural r with
      | Some (n, r') => Some (- n, r')
      | None => None
      end
  | _ => natural s
  end.

(** The double quote, character 34. *)
Definition dquote : ascii := "034"%char.

(** [quoted s] is [s] between double quotes. *)
Definition quoted (s : string) : string :=
  String dquote (s ++ String dquote EmptyString).

(** The characters of a string literal up to its closing quote. *)
Fixpoint chars (s : string) : option (string * string) :=
  match s with
  | EmptyString => None
  | String c r =>
      if Ascii.eqb c dquote then Some (EmptyString, r)
      else if Ascii.eqb c "\" then None
      else if Nat.ltb (nat_of_ascii c) 32 then None
      else match chars r with
           | Some (t, r') => Some (String c t, r')
           | None => None
           end
  end.

(** [d[k] = v] on the item list of a dict: a key already present keeps its
    place and takes the new value. *)
Fixpoint dict_set (k : string) (v : json) (items : list (string * json))
  : list (string * json) :=
  match items with
  | [] => [(k, v)]
  | (k', v') :: rest =>
      if String.eqb k' k then (k', v) :: rest else (k', v') :: dict_set k v rest
  end.

Definition dict_of (items : list (string * json)) : json :=
  JDict (fold_left (fun d kv => dict_set (fst kv) (snd kv) d) items []).

(** What a parser does with a text: it reads a value and leaves a rest,
    finds the text invalid, or meets a container beyond the allowed
    nesting. *)
Inductive parsed (A : Type) : Type :=
| Parsed (a : A) (rest : string)
| Invalid
| TooDeep.

Arguments Parsed {A} a rest.
Arguments Invalid {A}.
Arguments TooDeep {A}.

Definition of_option {A : Type} (o : option (A * string)) : parsed A :=
  match o with
  | Some (a, r) => Parsed a r
  | None => Invalid
  end.

(** [value fuel room s] reads one value; [room] is the number of container
    levels still allowed. *)
Fixpoint value (fuel room : nat) (s : string) : parsed json :=
  match fuel with
  | O => Invalid
  | S fuel' =>
      match skip_ws s with
      | String "n" r => of_option (option_map (pair JNull) (expect "ull" r))
      | String "t" r =>
          of_option (option_map (pair (JBool true)) (expect "rue" r))
      | String "f" r =>
          of_option (option_map (pair (JBool false)) (expect "alse" r))
      | String "034"%char r =>
          match chars r with
          | Some (t, r') => Parsed (JStr t) r'
          | None => Invalid
          end
      | String "[" r =>
          match room with
          | O => TooDeep
          | S room' =>
              match skip_ws r with
              | String "]" r' => Parsed (JList []) r'
              | r' =>
                  match elements fuel' room' r' with
                  | Parsed vs r'' => Parsed (JList vs) r''
                  | Invalid => Invalid
                  | TooDeep => TooDeep
                  end
              end
          end
      | String "{" r =>
          match room with
          | O => TooDeep
          | S room' =>
              match skip_ws r with
              | String "}" r' => Parsed (JDict []) r'
              | r' =>
                  match members fuel' room' r' with
                  | Parsed kvs r'' => Parsed (dict_of kvs) r''
                  | Invalid => Invalid
                  | TooDeep => TooDeep
                  end
              end
          end
      | s' =>
          match integer s' with
          | Some (n, r) => Parsed (JInt n) r
          | None => Invalid
          end
      end
  end

with elements (fuel room : nat) (s : string) : parsed (list json) :=
  match fuel with
  | O => Invalid
  | S fuel' =>
      match value fuel' room s with
      | Parsed v r =>
          match skip_ws r with
          | String "," r' =>
              match elements fuel' room r' with
              | Parsed vs r'' => Parsed (v :: vs) r''
              | Invalid => Invalid
              | TooDeep => TooDeep
              end
          | String "]" r' => Parsed [v] r'
          | _ => Invalid
          end
      | Invalid => Invalid
      | TooDeep => TooDeep
      end
  end

with members (fuel room : nat) (s : string)
  : parsed (list (string * json)) :=
  match fuel with
  | O => Invalid
  | S fuel' =>
      match skip_ws s with
      | String "034"%char r =>
          match chars r with
          | Some (k, r1) =>
              match skip_ws r1 with
              | String ":" r2 =>
                  match value fuel' room r2 with
                  | Parsed v r3 =>
                      match skip_ws r3 with
                      | String "," r4 =>
                          match members fuel' room r4 with
                          | Parsed kvs r5 => Parsed ((k, v) :: kvs) r5
                          | Invalid => Invalid
                          | TooDeep => TooDeep
                          end
                      | String "}" r4 => Parsed [(k, v)] r4
                      | _ => Invalid
                      end
                  | Invalid => Invalid
                  | TooDeep => TooDeep
                  end
              | _ => Invalid
              end
          | None => Invalid
          end
      | _ => Invalid
      end
  end.

(** The nesting the sample decoder and encoder follow. *)
Definition recursion_limit : nat := 900.

(** The whole body must be one value, white space apart. *)
Definition loads (s : string) : loaded :=
  match value (2 * String.length s + 2) recursion_limit s with
  | Parsed v r =>
      match skip_ws r with
      | EmptyString => Loaded v
      | _ => RaisesValueError
      end
  | Invalid => RaisesValueError
  | TooDeep => RaisesRecursionError
  end.

Definition encodes (j : json) : bool := Nat.leb (depth j) recursion_limit.

(** Spaces and tabs around a header value. *)
Definition is_ows (c : ascii) : bool :=
  let n := nat_of_ascii c in
  orb (Nat.eqb n 32) (Nat.eqb n 9).

Fixpoint lstrip_ows (s : string) : string :=
  match s with
  | EmptyString => EmptyString
  | String d s' => if is_ows d then lstrip_ows s' else s
  end.

Definition strip_ows (s : string) : string :=
  PyStr.rev (lstrip_ows (PyStr.rev (lstrip_ows s))).

Definition mimetype_of (header : string) : string :=
  PyStr.lower (strip_ows (PyStr.before ";" header)).

Definition lib : Library := Build_Library loads encodes mimetype_of.

End Sample.

(** ** Werkzeug: requests, HTTP exceptions and the URL map *)

Module Werkzeug.

(** The WSGI environment of one request, as far as this application and
    the framework code it runs read it.  [CONTENT_TYPE] is [None] when the
    request has no such header.  [wsgi_input] is the body of the request:
    the [CONTENT_LENGTH] bytes that [get_data()] reads from the input
    stream.  The requests modelled are plain HTTP requests: the
    environment has no [Connection] or [Upgrade] header. *)
Record Environ : Type := {
  REQUEST_METHOD : string;
  PATH_INFO : string;
  CONTENT_TYPE : option string;
  wsgi_input : string
}.

(** [werkzeug.exceptions]: the HTTP exceptions this application can meet. *)
Inductive HTTPException : Type :=
| BadRequest
| NotFound
| MethodNotAllowed (valid_methods : set string)
| UnsupportedMediaType
| InternalServerError.

Definition code (e : HTTPException) : Z :=
  match e with
  | BadRequest => 400
  | NotFound => 404
  | MethodNotAllowed _ => 405
  | UnsupportedMediaType => 415
  | InternalServerError => 500
  end.

(** Python exceptions: the HTTP ones, and the others the code below can
    raise. *)
Inductive exn : Type :=
| Http (e : HTTPException)
| KeyError (key : string)
| AssertionError
| RecursionError.

(** A Python call either returns or raises. *)
Inductive result (A : Type) : Type :=
| Ok (a : A)
| Raise (e : exn).

Arguments Ok {A} a.
Arguments Raise {A} e.

Definition bind {A B : Type} (c : result A) (k : A -> result B) : result B :=
  match c with
  | Ok a => k a
  | Raise e => Raise e
  end.

(** What a response carries: JSON text (kept as the value it encodes), the
    HTML page Werkzeug renders for an HTTP exception, or nothing. *)
Inductive Body : Type :=
| JsonData (j : json)
| ErrorPage (e : HTTPException)
| NoData.

(** A response: its status code and its body.  Headers are not modelled. *)
Record Response : Type := {
  status_code : Z;
  data : Body
}.

(** *** Request properties *)

(** [Request.method]: [sansio.Request.__init__] stores [method.upper()]. *)
Definition method (e : Environ) : string := PyStr.upper (REQUEST_METHOD e).

(** [Request.get_data()]. *)
Definition get_data (e : Environ) : string := wsgi_input e.

Section WithLibrary.

Variable lib : Library.

(** [Request.mimetype]: the media type of the Content-Type header;
    [headers.get] gives the empty string when the header is absent. *)
Definition mimetype (e : Environ) : string :=
  let header := match CONTENT_TYPE e with
                | Some v => v
                | None => EmptyString
                end in
  mimetype_of lib header.

(** [Request.is_json]:
    [mt == "application/json"
     or mt.startswith("application/") and mt.endswith("+json")]. *)
Definition is_json (e : Environ) : bool :=
  let mt := mimetype e in
  orb (String.eqb mt "application/json")
      (andb (PyStr.startswith mt "application/") (PyStr.endswith mt "+json")).

(** [Request.get_json()] with its default arguments [force=False] and
    [silent=False].  A [ValueError] of the decoder goes to
    [on_json_loading_failed], which raises [BadRequest]; any other
    exception of the decoder is not caught.  A request that is not
    [is_json] is refused without decoding, since Werkzeug 2.3 with
    [UnsupportedMediaType]; [predict] never calls [get_json] on such a
    request. *)
Definition get_json (request : Environ) : result json :=
  if is_json request then
    match loads lib (get_data request) with
    | Loaded rv => Ok rv
    | RaisesValueError => Raise (Http BadRequest)
    | RaisesRecursionError => Raise RecursionError
    end
  else Raise (Http UnsupportedMediaType).

End WithLibrary.

(** *** The URL map *)

Definition str_dec : forall a b : string, {a = b} + {a <> b} := string_dec.

(** A rule of the map.  Only static rules are modelled: the path of the
    rule has no converter and no trailing slash, which is the case for both
    rules of this application. *)
Record Rule : Type := {
  rule : string;
  methods : set string;
  endpoint : string;
  provide_automatic_options : bool
}.

(** The methods as [Rule.__init__] stores them: upper-cased, and with
    [HEAD] whenever [GET] is there. *)
Definition rule_methods (ms : set string) : set string :=
  let ms := set_map str_dec PyStr.upper ms in
  if andb (negb (set_mem str_dec "HEAD" ms)) (set_mem str_dec "GET" ms)
  then set_add str_dec "HEAD" ms
  else ms.

(** [MapAdapter.match] first normalises the path:
    [f"/{path_info.lstrip('/')}"] when [path_info] is not empty, the empty
    string otherwise. *)
Definition path_part (path_info : string) : string :=
  match path_info with
  | EmptyString => EmptyString
  | _ => String "/" (PyStr.lstrip_char "/" path_info)
  end.

(** The matcher, for static rules without trailing slash: a rule matches
    when its path is the requested path.  A rule whose path matches but
    whose methods do not contain the request's adds its methods to
    [have_match_for], and the search goes on.  (The second attempt with
    merged slashes cannot succeed where the first failed: [path_part]
    leaves a single leading slash, and the rules have no other.) *)
Fixpoint matcher (rules : list Rule) (path meth : string)
    (have_match_for : set string) : Rule + set string :=
  match rules with
  | [] => inr have_match_for
  | r :: rest =>
      if String.eqb (rule r) path then
        if set_mem str_dec meth (methods r) then inl r
        else matcher rest path meth
               (set_union str_dec have_match_for (methods r))
      else matcher rest path meth have_match_for
  end.

(** [MapAdapter.match], with the adapter's default method
    [environ["REQUEST_METHOD"]] upper-cased: the matching rule,
    [MethodNotAllowed] when some rule has the path but none the method,
    [NotFound] otherwise. *)
Definition match_ (rules : list Rule) (e : Environ) : result Rule :=
  match matcher rules (path_part (PATH_INFO e))
          (PyStr.upper (REQUEST_METHOD e)) [] with
  | inl r => Ok r
  | inr [] => Raise (Http NotFound)
  | inr have_match_for => Raise (Http (MethodNotAllowed have_match_for))
  end.

(** [HTTPException.get_response]: the status code of the exception and its
    HTML page. *)
Definition get_response (e : HTTPException) : Response :=
  {| status_code := code e; data := ErrorPage e |}.

(** [Response.get_app_iter]: the body is dropped when
    [environ["REQUEST_METHOD"] == "HEAD"], for a status 1xx, 204 or 304. *)
Definition get_app_iter (e : Environ) (r : Response) : Response :=
  let s := status_code r in
  if orb (String.eqb (REQUEST_METHOD e) "HEAD")
         (orb (andb (100 <=? s) (s <? 200)) (orb (s =? 204) (s =? 304)))
  then {| status_code := s; data := NoData |}
  else r.

End Werkzeug.
Export Werkzeug.

Notation "x <- c ;; k" := (bind c (fun x => k))
  (at level 61, c at next level, right associativity).

(** ** Flask: the application object and request dispatch *)

Module FlaskCore.

(** The global data of the module: the variables a view could set with a
    [global] statement and find again at the next request.  [app.py]
    defines none, so the store is empty when the module is loaded. *)
Definition Store : Type := list (string * json).

(** Code that runs against the global data: it returns or raises, and
    leaves the data as it made them. *)
Definition Run (A : Type) : Type := Store -> Store * result A.

(** A call into the library: it does not touch the module's data. *)
Definition call {A : Type} (r : result A) : Run A := fun g => (g, r).

(** One statement after another; an exception ends the run. *)
Definition and_then {A B : Type} (c : Run A) (k : A -> Run B) : Run B :=
  fun g =>
    let (g1, r) := c g in
    match r with
    | Ok a => k a g1
    | Raise ex => (g1, Raise ex)
    end.

(** A view function reads the request and returns a response or raises. *)
Definition View : Type := Environ -> Run Response.

(** The application object: its URL map and its [view_functions] dict. *)
Record Flask : Type := {
  url_map : list Rule;
  view_functions : list (string * View)
}.

(** What the application does with a request: it answers, or the request
    lies under [/static/].  [Flask(__name__)] registers a rule of its own,
    [/static/<path:filename>], that serves the files of the directory
    [static] next to [app.py]; this rule and its view are not modelled, and
    the model says [StaticFiles] for every request they may concern. *)
Inductive Outcome : Type :=
| Responds (r : Response)
| StaticFiles.

(** [Flask(__name__)], the static rule apart. *)
Definition Flask_init : Flask := {| url_map := []; view_functions := [] |}.

Definition under_static (e : Environ) : bool :=
  PyStr.startswith (path_part (PATH_INFO e)) "/static/".

Fixpoint get {A : Type} (d : list (string * A)) (k : string) : option A :=
  match d with
  | [] => None
  | (k', v) :: rest => if String.eqb k' k then Some v else get rest k
  end.

(** [Flask.add_url_rule(rule, endpoint, view_func, methods=...)].  Without
    [methods] the rule takes [("GET",)]; [OPTIONS] is added, and answered
    by the framework, unless the caller listed it.  An endpoint that already
    has a view function is refused. *)
Definition add_url_rule (path endpoint : string) (view_func : View)
    (methods : option (list string)) (app : Flask) : result Flask :=
  let methods := match methods with
                 | Some ms => ms
                 | None => ["GET"]
                 end in
  let methods := set_map str_dec PyStr.upper methods in
  let automatic := negb (set_mem str_dec "OPTIONS" methods) in
  let required_methods := if automatic then ["OPTIONS"] else [] in
  let methods := set_union str_dec methods required_methods in
  let rule_obj := {| rule := path;
                     methods := rule_methods methods;
                     endpoint := endpoint;
                     provide_automatic_options := automatic |} in
  match get (view_functions app) endpoint with
  | Some _ => Raise AssertionError
  | None =>
      Ok {| url_map := url_map app ++ [rule_obj];
            view_functions := view_functions app ++ [(endpoint, view_func)] |}
  end.

(** The decorator [@app.route(rule, **options)] on a function called
    [name]: the endpoint is the function's name. *)
Definition route (path : string) (methods : option (list string))
    (name : string) (f : View) (app : Flask) : result Flask :=
  add_url_rule path name f methods app.

(** The response [jsonify] builds: status 200 and the JSON text of
    [value]. *)
Definition json_response (value : json) : Response :=
  {| status_code := 200; data := JsonData value |}.

(** Whether [json.dumps] returns on [value].  A value without nesting is
    encoded without descending; for any other the library decides. *)
Definition dumps_returns (lib : Library) (value : json) : bool :=
  orb (flat value) (encodes lib value).

(** [jsonify(value)]: the response with the JSON text of [value], or the
    [RecursionError] of [json.dumps]. *)
Definition jsonify (lib : Library) (value : json) : result Response :=
  if dumps_returns lib value then Ok (json_response value)
  else Raise RecursionError.

(** [Flask.make_default_options_response]: an empty response, status 200. *)
Definition make_default_options_response : Response :=
  {| status_code := 200; data := NoData |}.

(** [Flask.dispatch_request]: the routing exception if matching raised one,
    the automatic answer to [OPTIONS], the view function otherwise. *)
Definition dispatch_request (app : Flask) (e : Environ) : Run Response :=
  fun g =>
    match match_ (url_map app) e with
    | Raise ex => (g, Raise ex)
    | Ok r =>
        if andb (provide_automatic_options r) (String.eqb (method e) "OPTIONS")
        then (g, Ok make_default_options_response)
        else match get (view_functions app) (endpoint r) with
             | Some view => view e g
             | None => (g, Raise (KeyError (endpoint r)))
             end
    end.

(** [Flask.handle_user_exception]: with no error handler registered, an
    HTTP exception becomes its own response; any other is raised again. *)
Definition handle_user_exception (ex : exn) : result Response :=
  match ex with
  | Http h => Ok (get_response h)
  | _ => Raise ex
  end.

Definition full_dispatch_request (app : Flask) (e : Environ) : Run Response :=
  fun g =>
    let (g1, rv) := dispatch_request app e g in
    (g1, match rv with
         | Ok r => Ok r
         | Raise ex => handle_user_exception ex
         end).

(** [Flask.handle_exception]: an exception nobody handled is answered with
    status 500. *)
Definition handle_exception (ex : exn) : Response :=
  get_response InternalServerError.

(** [Flask.wsgi_app]: the answer to one request, and the module's data as
    the request leaves them. *)
Definition wsgi_app (app : Flask) (e : Environ) (g : Store)
  : Store * Outcome :=
  if under_static e then (g, StaticFiles)
  else
    let (g1, rv) := full_dispatch_request app e g in
    let response := match rv with
                    | Ok r => r
                    | Raise ex => handle_exception ex
                    end in
    (g1, Responds (get_app_iter e response)).


End FlaskCore.
Export FlaskCore.

Notation "x <~ c ;; k" := (and_then c (fun x => k))
  (at level 61, c at next level, right associativity).

(** ** Concrete requests for the examples *)

Module Examples.

Definition request (m path : string) (ct : option string) (body : string)
  : Environ :=
  {| REQUEST_METHOD := m; PATH_INFO := path;
     CONTENT_TYPE := ct; wsgi_input := body |}.

(** The JSON text of the object with the one member [x], of value 1. *)
Definition x_is_1 : string := "{" ++ Sample.quoted "x" ++ ":1}".

(** [n] opening brackets and nothing to close them. *)
Fixpoint brackets (n : nat) : string :=
  match n with
  | O => EmptyString
  | S k => String "[" (brackets k)
  end.

Definition post_json : Environ :=
  request "POST" "/predict" (Some "application/json") x_is_1.

Definition post_json_as_text : Environ :=
  request "POST" "/predict" (Some "text/plain") x_is_1.


Definition post_bad_json : Environ :=
  request "POST" "/predict" (Some "application/json") "{bad".

Definition post_deep_json : Environ :=
  request "POST" "/predict" (Some "application/json") (brackets 1000).

Definition get_health : Environ := request "GET" "/health" None EmptyString.

Definition post_health : Environ := request "POST" "/health" None EmptyString.

Definition get_predict : Environ :=
  request "GET" "/predict" (Some "application/json") x_is_1.

Definition put_predict : Environ := request "PUT" "/predict" None EmptyString.

Definition get_unknown : Environ := request "GET" "/unknown" None EmptyString.

Definition get_slash_slash_health : Environ :=
  request "GET" "//health" None EmptyString.

End Examples.

(** ** The application: [app.py] *)

Section App.

Variable lib : Library.

(** [def health(): return jsonify({'status': 'ok'})] *)
Definition health : View :=
  fun request => call (jsonify lib (JDict [("status", JStr "ok")])).

(** [def predict(): ...] *)
Definition predict : View :=
  fun request =>
    if andb (String.eqb (method request) "POST") (is_json lib request) then
      data <~ call (get_json lib request) ;;
      call (jsonify lib
              (JDict [("prediction", JStr "dummy"); ("input", data)]))
    else
      call (jsonify lib (JDict [("prediction", JStr "dummy")])).

(** The module body: [app = Flask(__name__)] and the two decorators. *)
Definition module : result Flask :=
  app <- Ok Flask_init ;;
  app <- route "/health" None "health" health app ;;
  route "/predict" (Some ["POST"; "GET"]) "predict" predict app.

(** The application object once the module is loaded. *)
Definition app : Flask :=
  match module with
  | Ok a => a
  | Raise _ => Flask_init
  end.

End App.

(** The module's data once the module is loaded: none. *)
Definition no_globals : Store := [].

(** The rules the two decorators leave in the URL map. *)
Definition health_rule : Rule :=
  {| rule := "/health"; methods := ["OPTIONS"; "GET"; "HEAD"];
     endpoint := "health"; provide_automatic_options := true |}.

Definition predict_rule : Rule :=
  {| rule := "/predict"; methods := ["OPTIONS"; "POST"; "GET"; "HEAD"];
     endpoint := "predict"; provide_automatic_options := true |}.

(** The bodies of the three JSON responses. *)
Definition status_ok : json := JDict [("status", JStr "ok")].

Definition dummy : json := JDict [("prediction", JStr "dummy")].

Definition dummy_with (input : json) : json :=
  JDict [("prediction", JStr "dummy"); ("input", input)].

(** The application with the library of the examples, and the value the
    body of [Examples.post_json] decodes to. *)
Definition sample_app : Flask := app Sample.lib.

Definition x1 : json := JDict [("x", JInt 1)].

(** ** Reading an answer *)

(** [d.get(k)] on a dict value; [None] for a missing key and for a value
    that is no dict. *)
Definition dict_get (j : json) (k : string) : option json :=
  match j with
  | JDict items => get items k
  | _ => None
  end.

(** The status of an answer and the JSON value its body encodes, when it
    has one. *)
Definition status_of (o : Outcome) : option Z :=
  match o with
  | Responds r => Some (status_code r)
  | StaticFiles => None
  end.

Definition json_of (o : Outcome) : option json :=
  match o with
  | Responds r =>
      match data r with
      | JsonData j => Some j
      | _ => None
      end
  | StaticFiles => None
  end.

(** The members [input] and [prediction] of a JSON answer. *)
Definition input_of (o : Outcome) : option json :=
  match json_of o with
  | Some j => dict_get j "input"
  | None => None
  end.

Definition prediction_of (o : Outcome) : option json :=
  match json_of o with
  | Some j => dict_get j "prediction"
  | None => None
  end.

(** [slashes n p]: the path [p] with [n] more slashes in front. *)
Fixpoint slashes (n : nat) (p : string) : string :=
  match n with
  | O => p
  | S k => String "/" (slashes k p)
  end.

(** The answers of the application as one case analysis on the normalised
    path and the upper-cased method; [wsgi_app_table] below shows that
    dispatch through the URL map and the views computes exactly this. *)
Definition table (lib : Library) (e : Environ) : Response :=
  let p := path_part (PATH_INFO e) in
  let m := method e in
  if String.eqb p "/health" then
    if orb (String.eqb m "GET") (String.eqb m "HEAD")
    then json_response status_ok
    else if String.eqb m "OPTIONS" then make_default_options_response
    else get_response (MethodNotAllowed ["HEAD"; "GET"; "OPTIONS"])
  else if String.eqb p "/predict" then
    if String.eqb m "POST" then
      if is_json lib e then
        match loads lib (get_data e) with
        | Loaded v =>
            if dumps_returns lib (dummy_with v)
            then json_response (dummy_with v)
            else get_response InternalServerError
        | RaisesValueError => get_response BadRequest
        | RaisesRecursionError => get_response InternalServerError
        end
      else json_response dummy
    else if orb (String.eqb m "GET") (String.eqb m "HEAD")
    then json_response dummy
    else if String.eqb m "OPTIONS" then make_default_options_response
    else get_response (MethodNotAllowed ["HEAD"; "GET"; "POST"; "OPTIONS"])
  else get_response NotFound.

(** Running one request on the freshly loaded module. *)
Definition answer (a : Flask) (e : Environ) : Outcome :=
  snd (wsgi_app a e no_globals).

(** ** The model on concrete inputs *)

Example upper_post : PyStr.upper "post" = "POST".
Proof. reflexivity. Qed.

Example strip_spaces : Sample.strip_ows "  a b  " = "a b".
Proof. reflexivity. Qed.

Example mimetype_with_charset :
  mimetype Sample.lib
    (Examples.request "POST" "/predict"
       (Some "Application/JSON; charset=utf-8") EmptyString)
  = "application/json".
Proof. reflexivity. Qed.

Example is_json_plus_json :
  is_json Sample.lib
    (Examples.request "POST" "/predict"
       (Some "application/vnd.api+json") EmptyString) = true.
Proof. reflexivity. Qed.

Example is_json_no_header :
  is_json Sample.lib
    (Examples.request "POST" "/predict" None Examples.x_is_1) = false.
Proof. reflexivity. Qed.

Example path_part_slashes : path_part "///health" = "/health".
Proof. reflexivity. Qed.

Example path_part_trailing : path_part "/health/" = "/health/".
Proof. reflexivity. Qed.

Example path_part_empty : path_part EmptyString = EmptyString.
Proof. reflexivity. Qed.

Example loads_object : Sample.loads Examples.x_is_1 = Loaded x1.
Proof. reflexivity. Qed.

Example loads_nested :
  Sample.loads "[1, -2, [], null, true]"
  = Loaded (JList [JInt 1; JInt (-2); JList []; JNull; JBool true]).
Proof. reflexivity. Qed.

Example loads_bare_word : Sample.loads "hello" = RaisesValueError.
Proof. reflexivity. Qed.

Example loads_empty : Sample.loads EmptyString = RaisesValueError.
Proof. reflexivity. Qed.

Example loads_trailing_comma : Sample.loads "[1,2,]" = RaisesValueError.
Proof. reflexivity. Qed.

Example loads_unclosed : Sample.loads "[[[" = RaisesValueError.
Proof. reflexivity. Qed.

Example loads_too_deep :
  Sample.loads (Examples.brackets 1000) = RaisesRecursionError.
Proof. vm_compute. reflexivity. Qed.

Example head_health :
  answer sample_app (Examples.request "HEAD" "/health" None EmptyString)
  = Responds {| status_code := 200; data := NoData |}.
Proof. reflexivity. Qed.

Example options_predict :
  answer sample_app (Examples.request "OPTIONS" "/predict" None EmptyString)
  = Responds make_default_options_response.
Proof. reflexivity. Qed.

Example lower_case_post :
  answer sample_app
    (Examples.request "post" "/predict" (Some "application/json")
       Examples.x_is_1)
  = Responds (json_response (dummy_with x1)).
Proof. reflexivity. Qed.

Example post_empty_json_body :
  answer sample_app
    (Examples.request "POST" "/predict" (Some "application/json") EmptyString)
  = Responds (get_response BadRequest).
Proof. reflexivity. Qed.

Example post_deep_json_body :
  answer sample_app Examples.post_deep_json
  = Responds (get_response InternalServerError).
Proof. vm_compute. reflexivity. Qed.

Example trailing_slash_not_found :
  answer sample_app (Examples.request "GET" "/health/" None EmptyString)
  = Responds (get_response NotFound).
Proof. reflexivity. Qed.

Example under_static_left_out :
  answer sample_app
    (Examples.request "POST" "/static/style.css" None EmptyString)
  = StaticFiles.
Proof. reflexivity. Qed.

(** ** Properties *)

(** A second leading slash changes nothing for the URL map. *)
Lemma path_part_double_slash (p : string) :
  path_part (String "/" (String "/" p)) = path_part (String "/" p).
Proof. reflexivity. Qed.

Lemma path_part_of_slashes (n : nat) (p : string) :
  path_part (slashes n (String "/" p)) = path_part (String "/" p).
Proof.
  induction n as [|n IH]; [reflexivity|].
  cbn [slashes]. rewrite <- IH.
  destruct n; reflexivity.
Qed.

Lemma set_mem_In (m : string) (l : set string) :
  set_mem str_dec m l = true <-> In m l.
Proof.
  split.
  - apply set_mem_correct1.
  - apply set_mem_correct2.
Qed.

Lemma set_mem_not_In (m : string) (l : set string) :
  ~ In m l -> set_mem str_dec m l = false.
Proof.
  intros H. destruct (set_mem str_dec m l) eqn:E; [|reflexivity].
  apply set_mem_In in E. contradiction.
Qed.

(** The body may be dropped on the way out; the status never changes. *)
Lemma get_app_iter_status (e : Environ) (r : Response) :
  status_code (get_app_iter e r) = status_code r.
Proof.
  unfold get_app_iter. destruct (orb _ _); reflexivity.
Qed.

Lemma get_app_iter_kept (e : Environ) (h : HTTPException) :
  REQUEST_METHOD e <> "HEAD" ->
  400 <= code h ->
  get_app_iter e (get_response h) = get_response h.
Proof.
  intros Hm Hc. unfold get_app_iter.
  destruct (String.eqb_spec (REQUEST_METHOD e) "HEAD") as [E|_];
    [contradiction|].
  cbn [status_code get_response orb].
  replace (code h <? 200) with false by (symmetry; apply Z.ltb_ge; lia).
  replace (code h =? 204) with false by (symmetry; apply Z.eqb_neq; lia).
  replace (code h =? 304) with false by (symmetry; apply Z.eqb_neq; lia).
  rewrite andb_false_r. reflexivity.
Qed.

Lemma get_app_iter_200 (e : Environ) (body : Body) :
  REQUEST_METHOD e <> "HEAD" ->
  get_app_iter e {| status_code := 200; data := body |} =
    {| status_code := 200; data := body |}.
Proof.
  intros Hm. unfold get_app_iter.
  destruct (String.eqb_spec (REQUEST_METHOD e) "HEAD") as [E|_];
    [contradiction|reflexivity].
Qed.

Lemma upper_not_head (e : Environ) (l : list string) :
  In "HEAD" l ->
  ~ In (PyStr.upper (REQUEST_METHOD e)) l ->
  REQUEST_METHOD e <> "HEAD".
Proof.
  intros Hin Hn E. apply Hn. rewrite E. exact Hin.
Qed.

Lemma method_not_head (e : Environ) :
  method e <> "HEAD" -> REQUEST_METHOD e <> "HEAD".
Proof.
  unfold method. intros H E. apply H. rewrite E. reflexivity.
Qed.

Lemma not_under_static (e : Environ) (p : string) :
  path_part (PATH_INFO e) = p ->
  PyStr.startswith p "/static/" = false ->
  under_static e = false.
Proof.
  intros <- H. exact H.
Qed.

Section Properties.

Variable lib : Library.

Lemma module_loaded : module lib = Ok (app lib).
Proof. reflexivity. Qed.

Lemma app_url_map : url_map (app lib) = [health_rule; predict_rule].
Proof. reflexivity. Qed.

Lemma app_view_functions :
  view_functions (app lib) = [("health", health lib); ("predict", predict lib)].
Proof. reflexivity. Qed.

(** A value without nesting is always encoded. *)
Lemma jsonify_flat (value : json) :
  flat value = true -> jsonify lib value = Ok (json_response value).
Proof.
  intros H. unfold jsonify, dumps_returns. rewrite H. reflexivity.
Qed.

(** [health] leaves the module's data alone and returns its response. *)
Lemma health_spec (e : Environ) (g : Store) :
  health lib e g = (g, Ok (json_response status_ok)).
Proof. reflexivity. Qed.

(** [predict] by cases on the tests it makes; it leaves the module's data
    alone.  The second test of [is_json], the one inside [get_json], never
    fails: the view only calls [get_json] on a request that passed the
    first. *)
Lemma predict_spec (e : Environ) (g : Store) :
  predict lib e g =
    (g,
     if andb (String.eqb (method e) "POST") (is_json lib e) then
       match loads lib (get_data e) with
       | Loaded v => jsonify lib (dummy_with v)
       | RaisesValueError => Raise (Http BadRequest)
       | RaisesRecursionError => Raise RecursionError
       end
     else Ok (json_response dummy)).
Proof.
  unfold predict, get_json, and_then, call.
  destruct (String.eqb (method e) "POST"); destruct (is_json lib e);
    cbn [andb]; try reflexivity.
  destruct (loads lib (get_data e)); reflexivity.
Qed.

(** Dispatch through the URL map and the views computes [table], and
    leaves the module's data as they were. *)
Lemma wsgi_app_table (e : Environ) (g : Store) :
  wsgi_app (app lib) e g =
    (g, if under_static e then StaticFiles
        else Responds (get_app_iter e (table lib e))).
Proof.
  unfold wsgi_app. destruct (under_static e); [reflexivity|].
  pose proof (predict_spec e g) as Hpr.
  unfold full_dispatch_request, dispatch_request, match_, table.
  rewrite app_url_map, app_view_functions. fold (method e).
  remember (method e) as m eqn:Hm.
  remember (path_part (PATH_INFO e)) as p eqn:Hp.
  cbn [matcher]. change (rule health_rule) with "/health".
  change (rule predict_rule) with "/predict".
  destruct (String.eqb_spec "/health" p) as [<- | Hh].
  - change (String.eqb "/predict" "/health") with false. cbv iota.
    destruct (String.eqb_spec m "GET") as [-> | HG]; [reflexivity|].
    destruct (String.eqb_spec m "HEAD") as [-> | HH]; [reflexivity|].
    destruct (String.eqb_spec m "OPTIONS") as [-> | HO]; [reflexivity|].
    rewrite set_mem_not_In; [reflexivity|].
    cbn. intros [H | [H | [H | []]]]; congruence.
  - rewrite (proj2 (String.eqb_neq p "/health")) by congruence.
    destruct (String.eqb_spec "/predict" p) as [<- | Hpp].
    + change (String.eqb "/predict" "/predict") with true. cbv iota.
      destruct (String.eqb_spec m "POST") as [-> | HP].
      { cbn -[predict]. rewrite Hpr. cbn [andb]. unfold jsonify.
        destruct (is_json lib e); [|reflexivity].
        destruct (loads lib (get_data e)); [|reflexivity|reflexivity].
        destruct (dumps_returns lib (dummy_with v)); reflexivity. }
      assert (Hpr' : predict lib e g = (g, Ok (json_response dummy))).
      { rewrite Hpr. reflexivity. }
      destruct (String.eqb_spec m "GET") as [-> | HG];
        [cbn -[predict]; rewrite Hpr'; reflexivity|].
      destruct (String.eqb_spec m "HEAD") as [-> | HH];
        [cbn -[predict]; rewrite Hpr'; reflexivity|].
      destruct (String.eqb_spec m "OPTIONS") as [-> | HO]; [reflexivity|].
      rewrite set_mem_not_In; [reflexivity|].
      cbn. intros [H | [H | [H | [H | []]]]]; congruence.
    + rewrite (proj2 (String.eqb_neq p "/predict")) by congruence.
      reflexivity.
Qed.

Lemma status_table (e : Environ) (g : Store) :
  status_of (snd (wsgi_app (app lib) e g)) =
    if under_static e then None else Some (status_code (table lib e)).
Proof.
  rewrite wsgi_app_table. cbn [snd].
  destruct (under_static e); [reflexivity|].
  cbn [status_of]. rewrite get_app_iter_status. reflexivity.
Qed.

(** Case analysis on the tests [table] makes. *)
Ltac table_cases e m p :=
  unfold under_static, table;
  remember (method e) as m;
  remember (path_part (PATH_INFO e)) as p;
  (destruct (String.eqb_spec p "/health") as [-> | ?];
   [|destruct (String.eqb_spec p "/predict") as [-> | ?]]);
  (destruct (String.eqb_spec m "POST") as [-> | ?];
   [|destruct (String.eqb_spec m "GET") as [-> | ?];
     [|destruct (String.eqb_spec m "HEAD") as [-> | ?];
       [|destruct (String.eqb_spec m "OPTIONS") as [-> | ?]]]]);
  destruct (is_json lib e);
  (destruct (loads lib (get_data e)) as [v0| |];
   [destruct (dumps_returns lib (dummy_with v0)) eqn:?| |]);
  cbn -[PyStr.startswith].

Lemma table_status (e : Environ) :
  In (status_code (table lib e)) [200; 400; 404; 405; 500].
Proof.
  table_cases e m p; auto 6.
Qed.

(** On the way out the answer of [table] loses its body for a [HEAD]
    request and is otherwise kept. *)
Lemma get_app_iter_table (e : Environ) :
  get_app_iter e (table lib e) =
    if String.eqb (REQUEST_METHOD e) "HEAD"
    then {| status_code := status_code (table lib e); data := NoData |}
    else table lib e.
Proof.
  unfold get_app_iter.
  destruct (String.eqb (REQUEST_METHOD e) "HEAD"); [reflexivity|].
  destruct (table_status e) as [<- | [<- | [<- | [<- | [<- | []]]]]];
    reflexivity.
Qed.

Lemma method_post_not_head (e : Environ) :
  method e = "POST" -> String.eqb (REQUEST_METHOD e) "HEAD" = false.
Proof.
  unfold method. intros H.
  destruct (String.eqb_spec (REQUEST_METHOD e) "HEAD") as [E|]; [|reflexivity].
  rewrite E in H. discriminate H.
Qed.

(** The answer is a function of the method, the normalised path, the
    flag [is_json] and what the body decodes to. *)
Lemma wsgi_app_congruence (e1 e2 : Environ) (g : Store) :
  REQUEST_METHOD e1 = REQUEST_METHOD e2 ->
  path_part (PATH_INFO e1) = path_part (PATH_INFO e2) ->
  is_json lib e1 = is_json lib e2 ->
  loads lib (get_data e1) = loads lib (get_data e2) ->
  wsgi_app (app lib) e1 g = wsgi_app (app lib) e2 g.
Proof.
  intros Hm Hp Hj Hl. rewrite !wsgi_app_table.
  unfold under_static, get_app_iter, table, method.
  rewrite Hm, Hp, Hj, Hl. reflexivity.
Qed.


(** Rewriting with what is known of a request and computing the rest. *)
Ltac by_table :=
  rewrite wsgi_app_table;
  unfold under_static, table, get_app_iter, method.

(** (C3, amended) Every GET request to [/health], whatever its headers
    and body, is answered with status 200 and the JSON body
    [{"status": "ok"}]. *)
Theorem health_get_ok (e : Environ) (g : Store) :
  REQUEST_METHOD e = "GET" ->
  PATH_INFO e = "/health" ->
  wsgi_app (app lib) e g =
    (g, Responds {| status_code := 200; data := JsonData status_ok |}).
Proof.
  intros Hm Hp. by_table. rewrite Hm, Hp. reflexivity.
Qed.

(** (C1, amended) For every JSON value [v], a POST request to [/predict]
    whose Content-Type declares JSON, whose body [json.loads] decodes to
    [v], and whose answer [json.dumps] can encode, is answered with status
    200 and the body [{"prediction": "dummy", "input": v}]: the input field
    is the decoded body itself. *)
Theorem predict_post_json_echo (e : Environ) (v : json) (g : Store) :
  REQUEST_METHOD e = "POST" ->
  PATH_INFO e = "/predict" ->
  is_json lib e = true ->
  loads lib (get_data e) = Loaded v ->
  dumps_returns lib (dummy_with v) = true ->
  wsgi_app (app lib) e g =
    (g, Responds {| status_code := 200; data := JsonData (dummy_with v) |}).
Proof.
  intros Hm Hp Hj Hl Hd. by_table. rewrite Hm, Hp, Hj, Hl.
  cbv beta iota. rewrite Hd. reflexivity.
Qed.


(** (C4) Every GET request to [/predict], whatever body and headers come
    with it, is answered with status 200 and the body
    [{"prediction": "dummy"}], which has no input key. *)
Theorem predict_get_dummy (e : Environ) (g : Store) :
  REQUEST_METHOD e = "GET" ->
  PATH_INFO e = "/predict" ->
  wsgi_app (app lib) e g =
    (g, Responds {| status_code := 200; data := JsonData dummy |}) /\
  has_key "input" dummy = false.
Proof.
  intros Hm Hp. split; [|reflexivity].
  by_table. rewrite Hm, Hp. reflexivity.
Qed.

(** (C5, amended) Every request whose path, once the URL matcher has
    reduced its leading slashes to one, is neither [/health] nor [/predict],
    and does not lie under [/static/], is answered with status 404,
    whatever its method; the body of that answer is not constrained. *)
Theorem unknown_path_404 (e : Environ) (g : Store) :
  path_part (PATH_INFO e) <> "/health" ->
  path_part (PATH_INFO e) <> "/predict" ->
  under_static e = false ->
  exists r, wsgi_app (app lib) e g = (g, Responds r) /\ status_code r = 404.
Proof.
  intros H1 H2 Hs. rewrite wsgi_app_table, Hs.
  eexists. split; [reflexivity|].
  rewrite get_app_iter_status. unfold table.
  rewrite (proj2 (String.eqb_neq _ _) H1), (proj2 (String.eqb_neq _ _) H2).
  reflexivity.
Qed.


(** (C7) The view [health] cannot fail: for every request it returns a
    response, the same one, and raises no exception. *)
Theorem health_total (request : Environ) (g : Store) :
  health lib request g = (g, Ok (json_response status_ok)) /\
  forall (ex : exn) (g1 : Store), health lib request g <> (g1, Raise ex).
Proof.
  split; [reflexivity|]. intros ex g1. rewrite health_spec. discriminate.
Qed.

(** (C8) The rule for [/health] is registered without a method list, so
    its methods are GET, HEAD and OPTIONS and no other: a request to
    [/health] with one of these is answered with status 200, a request with
    any other method, POST, PUT and DELETE among them, with status 405. *)
Theorem health_other_methods_405 (e : Environ) (g : Store) :
  PATH_INFO e = "/health" ->
  (forall r m, In r (url_map (app lib)) -> rule r = "/health" ->
     (In m (methods r) <-> In m ["GET"; "HEAD"; "OPTIONS"])) /\
  (In (PyStr.upper (REQUEST_METHOD e)) ["GET"; "HEAD"; "OPTIONS"] ->
     exists r, wsgi_app (app lib) e g = (g, Responds r) /\
               status_code r = 200) /\
  (~ In (PyStr.upper (REQUEST_METHOD e)) ["GET"; "HEAD"; "OPTIONS"] ->
     wsgi_app (app lib) e g =
       (g, Responds
             (get_response (MethodNotAllowed ["HEAD"; "GET"; "OPTIONS"])))) /\
  (In (REQUEST_METHOD e) ["POST"; "PUT"; "DELETE"] ->
     exists r, wsgi_app (app lib) e g = (g, Responds r) /\
               status_code r = 405 /\ status_code r <> 200).
Proof.
  intros Hp.
  assert (Hpp : path_part (PATH_INFO e) = "/health") by (rewrite Hp; reflexivity).
  assert (Hs : under_static e = false)
    by (apply (not_under_static e "/health"); auto).
  assert (Ht : ~ In (PyStr.upper (REQUEST_METHOD e)) ["GET"; "HEAD"; "OPTIONS"] ->
               table lib e =
                 get_response (MethodNotAllowed ["HEAD"; "GET"; "OPTIONS"])).
  { intros Hn. unfold table, method. rewrite Hpp.
    change (String.eqb "/health" "/health") with true. cbv iota.
    destruct (String.eqb_spec (PyStr.upper (REQUEST_METHOD e)) "GET") as [E|_];
      [exfalso; apply Hn; rewrite E; cbn; auto|].
    destruct (String.eqb_spec (PyStr.upper (REQUEST_METHOD e)) "HEAD") as [E|_];
      [exfalso; apply Hn; rewrite E; cbn; auto|].
    destruct (String.eqb_spec (PyStr.upper (REQUEST_METHOD e)) "OPTIONS")
      as [E|_]; [exfalso; apply Hn; rewrite E; cbn; auto|].
    reflexivity. }
  assert (H405 :
    ~ In (PyStr.upper (REQUEST_METHOD e)) ["GET"; "HEAD"; "OPTIONS"] ->
    wsgi_app (app lib) e g =
      (g, Responds
            (get_response (MethodNotAllowed ["HEAD"; "GET"; "OPTIONS"])))).
  { intros Hn. rewrite wsgi_app_table, Hs, (Ht Hn).
    rewrite get_app_iter_kept; [reflexivity| |cbn; lia].
    apply (upper_not_head e ["GET"; "HEAD"; "OPTIONS"]); cbn; auto. }
  split; [|split; [|split]].
  - intros r m Hr Hrule. rewrite app_url_map in Hr.
    destruct Hr as [<- | [<- | []]]; [|discriminate Hrule].
    cbn. tauto.
  - intros Hin. rewrite wsgi_app_table, Hs.
    eexists. split; [reflexivity|]. rewrite get_app_iter_status.
    unfold table, method. rewrite Hpp.
    destruct Hin as [<- | [<- | [<- | []]]]; reflexivity.
  - exact H405.
  - intros Hin. eexists. split; [apply H405|cbn; lia].
    destruct Hin as [Hm | [Hm | [Hm | []]]]; rewrite <- Hm; cbn;
      intros [H | [H | [H | []]]]; discriminate H.
Qed.

(** (C9, amended) A POST request to [/predict] whose Content-Type declares
    JSON and whose body makes [json.loads] raise [ValueError] makes
    [get_json()] raise [BadRequest], and the answer has status 400; the
    body [{"prediction": "dummy"}] is the answer to a POST request only
    when its Content-Type is not a JSON type. *)
Theorem predict_post_bad_json_400 (e : Environ) (g : Store) :
  REQUEST_METHOD e = "POST" ->
  PATH_INFO e = "/predict" ->
  (is_json lib e = true -> loads lib (get_data e) = RaisesValueError ->
     get_json lib e = Raise (Http BadRequest) /\
     predict lib e g = (g, Raise (Http BadRequest)) /\
     wsgi_app (app lib) e g = (g, Responds (get_response BadRequest)) /\
     status_code (get_response BadRequest) = 400) /\
  (wsgi_app (app lib) e g = (g, Responds (json_response dummy)) ->
   is_json lib e = false).
Proof.
  intros Hm Hp.
  assert (Hmeth : method e = "POST") by (unfold method; rewrite Hm; reflexivity).
  split.
  - intros Hj Hl. split; [|split; [|split]].
    + unfold get_json. rewrite Hj, Hl. reflexivity.
    + rewrite predict_spec, Hmeth, Hj, Hl. reflexivity.
    + by_table. rewrite Hm, Hp, Hj, Hl. reflexivity.
    + reflexivity.
  - intros Hr. destruct (is_json lib e) eqn:Hj; [exfalso|reflexivity].
    revert Hr. by_table. rewrite Hm, Hp, Hj.
    destruct (loads lib (get_data e)) as [v| |];
      [destruct (dumps_returns lib (dummy_with v))| |];
      cbn; intros Hr; discriminate Hr.
Qed.

(** (C10) The rule for [/predict] has the methods POST and GET it was
    registered with, and HEAD and OPTIONS, and no other: a request to
    [/predict] with one of these reaches the view or the automatic answer
    to OPTIONS and is never answered 405; a request with any other method,
    PUT and DELETE among them, is answered with status 405. *)
Theorem predict_other_methods_405 (e : Environ) (g : Store) :
  PATH_INFO e = "/predict" ->
  (forall r m, In r (url_map (app lib)) -> rule r = "/predict" ->
     (In m (methods r) <-> In m ["POST"; "GET"; "HEAD"; "OPTIONS"])) /\
  (In (PyStr.upper (REQUEST_METHOD e)) ["POST"; "GET"; "HEAD"; "OPTIONS"] ->
     exists r, wsgi_app (app lib) e g = (g, Responds r) /\
               status_code r <> 405) /\
  (~ In (PyStr.upper (REQUEST_METHOD e)) ["POST"; "GET"; "HEAD"; "OPTIONS"] ->
     wsgi_app (app lib) e g =
       (g, Responds
             (get_response
                (MethodNotAllowed ["HEAD"; "GET"; "POST"; "OPTIONS"])))) /\
  (In (REQUEST_METHOD e) ["PUT"; "DELETE"] ->
     exists r, wsgi_app (app lib) e g = (g, Responds r) /\
               status_code r = 405).
Proof.
  intros Hp.
  assert (Hpp : path_part (PATH_INFO e) = "/predict") by (rewrite Hp; reflexivity).
  assert (Hs : under_static e = false)
    by (apply (not_under_static e "/predict"); auto).
  assert (Ht :
    ~ In (PyStr.upper (REQUEST_METHOD e)) ["POST"; "GET"; "HEAD"; "OPTIONS"] ->
    table lib e =
      get_response (MethodNotAllowed ["HEAD"; "GET"; "POST"; "OPTIONS"])).
  { intros Hn. unfold table, method. rewrite Hpp.
    change (String.eqb "/predict" "/health") with false.
    change (String.eqb "/predict" "/predict") with true. cbv iota.
    destruct (String.eqb_spec (PyStr.upper (REQUEST_METHOD e)) "POST") as [E|_];
      [exfalso; apply Hn; rewrite E; cbn; auto|].
    destruct (String.eqb_spec (PyStr.upper (REQUEST_METHOD e)) "GET") as [E|_];
      [exfalso; apply Hn; rewrite E; cbn; auto|].
    destruct (String.eqb_spec (PyStr.upper (REQUEST_METHOD e)) "HEAD") as [E|_];
      [exfalso; apply Hn; rewrite E; cbn; auto|].
    destruct (String.eqb_spec (PyStr.upper (REQUEST_METHOD e)) "OPTIONS")
      as [E|_]; [exfalso; apply Hn; rewrite E; cbn; auto|].
    reflexivity. }
  assert (H405 :
    ~ In (PyStr.upper (REQUEST_METHOD e)) ["POST"; "GET"; "HEAD"; "OPTIONS"] ->
    wsgi_app (app lib) e g =
      (g, Responds
            (get_response
               (MethodNotAllowed ["HEAD"; "GET"; "POST"; "OPTIONS"])))).
  { intros Hn. rewrite wsgi_app_table, Hs, (Ht Hn).
    rewrite get_app_iter_kept; [reflexivity| |cbn; lia].
    apply (upper_not_head e ["POST"; "GET"; "HEAD"; "OPTIONS"]); cbn; auto. }
  split; [|split; [|split]].
  - intros r m Hr Hrule. rewrite app_url_map in Hr.
    destruct Hr as [<- | [<- | []]]; [discriminate Hrule|].
    cbn. tauto.
  - intros Hin. rewrite wsgi_app_table, Hs.
    eexists. split; [reflexivity|]. rewrite get_app_iter_status.
    unfold table, method. rewrite Hpp.
    destruct Hin as [<- | [<- | [<- | [<- | []]]]]; cbn; try lia.
    destruct (is_json lib e); [|cbn; lia].
    destruct (loads lib (get_data e)) as [v| |];
      [destruct (dumps_returns lib (dummy_with v))| |]; cbn; lia.
  - exact H405.
  - intros Hin. eexists. split; [apply H405|cbn; lia].
    destruct Hin as [Hm | [Hm | []]]; rewrite <- Hm; cbn;
      intros [H | [H | [H | [H | []]]]]; discriminate H.
Qed.

(** ** The whole answer table *)

(** (X1) [predict] raises exactly when the request is a POST whose
    Content-Type declares JSON and either the decoder raises or the
    encoder does: [BadRequest] for a [ValueError] of [json.loads],
    [RecursionError] when [json.loads] or [json.dumps] exceeds the nesting
    the interpreter follows.  [get_json] never raises
    [UnsupportedMediaType] inside [predict], and the module's data are
    left as they were. *)
Theorem predict_raises_iff (e : Environ) (ex : exn) (g g1 : Store) :
  predict lib e g = (g1, Raise ex) <->
  g1 = g /\ method e = "POST" /\ is_json lib e = true /\
  ((ex = Http BadRequest /\ loads lib (get_data e) = RaisesValueError) \/
   (ex = RecursionError /\
    (loads lib (get_data e) = RaisesRecursionError \/
     exists v, loads lib (get_data e) = Loaded v /\
               dumps_returns lib (dummy_with v) = false))).
Proof.
  rewrite predict_spec. unfold jsonify.
  destruct (String.eqb_spec (method e) "POST") as [Hm | Hm];
    destruct (is_json lib e);
    (destruct (loads lib (get_data e)) as [v0| |];
     [destruct (dumps_returns lib (dummy_with v0)) eqn:Hd| |]);
    cbn [andb];
    (split;
     [intros H; try discriminate H; injection H as <- <-;
      repeat split; auto; eauto 6
     |intros (Hg & H1 & H2 & [(Hex & Hl) | (Hex & [Hl | (v & Hl & Hv)])]);
      try discriminate; try congruence; subst; try reflexivity]).
  all: injection Hl as ->; congruence.
Qed.

(** (X2) Outside [/static/], the answer carries an [input] member exactly
    when the request is to [/predict], its method is POST, its
    Content-Type declares JSON, its body decodes and the answer can be
    encoded; the member is then the decoded body. *)
Theorem input_echoed_iff (e : Environ) (v : json) (g : Store) :
  under_static e = false ->
  (input_of (snd (wsgi_app (app lib) e g)) = Some v <->
   path_part (PATH_INFO e) = "/predict" /\ method e = "POST" /\
   is_json lib e = true /\ loads lib (get_data e) = Loaded v /\
   dumps_returns lib (dummy_with v) = true).
Proof.
  intros Hs. rewrite wsgi_app_table, Hs, get_app_iter_table. cbn [snd].
  split.
  - destruct (String.eqb (REQUEST_METHOD e) "HEAD"); [discriminate|].
    clear Hs. table_cases e m p; intros H; try discriminate H.
    injection H as <-. repeat split; auto.
  - intros (Hp & Hm & Hj & Hl & Hd).
    rewrite (method_post_not_head e Hm).
    unfold table. rewrite Hp, Hm, Hj, Hl. cbv beta iota. rewrite Hd.
    reflexivity.
Qed.

(** (X3) Outside [/static/], the status of the answer is 200, 400, 404,
    405 or 500, and never 415. *)
Theorem status_is_one_of_five (e : Environ) (g : Store) (st : Z) :
  under_static e = false ->
  status_of (snd (wsgi_app (app lib) e g)) = Some st ->
  In st [200; 400; 404; 405; 500].
Proof.
  intros Hs. rewrite status_table, Hs. intros H. injection H as <-.
  apply table_status.
Qed.

(** (X4) Outside [/static/], the answer is 404 exactly when the normalised
    path is neither [/health] nor [/predict]. *)
Theorem not_found_iff (e : Environ) (g : Store) :
  under_static e = false ->
  (status_of (snd (wsgi_app (app lib) e g)) = Some 404 <->
   path_part (PATH_INFO e) <> "/health" /\
   path_part (PATH_INFO e) <> "/predict").
Proof.
  intros Hs. rewrite status_table, Hs. clear Hs.
  table_cases e m p;
    (split; [intros H; try discriminate H; split; congruence
            |intros (H1 & H2); congruence]).
Qed.

(** (X5) Outside [/static/], the answer is 405 exactly when the path is
    one of the two routes and the upper-cased method is not one the route
    has: GET, HEAD and OPTIONS for [/health], and POST besides for
    [/predict]. *)
Theorem method_not_allowed_iff (e : Environ) (g : Store) :
  under_static e = false ->
  (status_of (snd (wsgi_app (app lib) e g)) = Some 405 <->
   (path_part (PATH_INFO e) = "/health" /\
    ~ In (method e) ["GET"; "HEAD"; "OPTIONS"]) \/
   (path_part (PATH_INFO e) = "/predict" /\
    ~ In (method e) ["POST"; "GET"; "HEAD"; "OPTIONS"])).
Proof.
  intros Hs. rewrite status_table, Hs. clear Hs.
  table_cases e m p;
    (split;
     [intros H; try discriminate H;
      first [left; split; [reflexivity|] | right; split; [reflexivity|]];
      cbn; intuition congruence
     |intros [(H1 & H2) | (H1 & H2)];
      try discriminate H1; try congruence;
      try (exfalso; apply H2; cbn; tauto)]).
Qed.

(** (X6) Outside [/static/], the answer is 400 exactly when the request
    is to [/predict], its method is POST, its Content-Type declares JSON
    and its body makes [json.loads] raise [ValueError]. *)
Theorem bad_request_iff (e : Environ) (g : Store) :
  under_static e = false ->
  (status_of (snd (wsgi_app (app lib) e g)) = Some 400 <->
   path_part (PATH_INFO e) = "/predict" /\ method e = "POST" /\
   is_json lib e = true /\ loads lib (get_data e) = RaisesValueError).
Proof.
  intros Hs. rewrite status_table, Hs. clear Hs.
  table_cases e m p;
    (split;
     [intros H; try discriminate H; auto
     |intros (H1 & H2 & H3 & H4);
      try discriminate; try congruence]).
Qed.

(** (X13) Outside [/static/], the answer is 500 exactly when the request
    is to [/predict], its method is POST, its Content-Type declares JSON,
    and [json.loads] raises [RecursionError] on the body or [json.dumps]
    cannot encode the answer. *)
Theorem server_error_iff (e : Environ) (g : Store) :
  under_static e = false ->
  (status_of (snd (wsgi_app (app lib) e g)) = Some 500 <->
   path_part (PATH_INFO e) = "/predict" /\ method e = "POST" /\
   is_json lib e = true /\
   (loads lib (get_data e) = RaisesRecursionError \/
    exists v, loads lib (get_data e) = Loaded v /\
              dumps_returns lib (dummy_with v) = false)).
Proof.
  intros Hs. rewrite status_table, Hs. clear Hs.
  unfold under_static, table.
  remember (method e) as m. remember (path_part (PATH_INFO e)) as p.
  (destruct (String.eqb_spec p "/health") as [-> | ?];
   [|destruct (String.eqb_spec p "/predict") as [-> | ?]]);
  (destruct (String.eqb_spec m "POST") as [-> | ?];
   [|destruct (String.eqb_spec m "GET") as [-> | ?];
     [|destruct (String.eqb_spec m "HEAD") as [-> | ?];
       [|destruct (String.eqb_spec m "OPTIONS") as [-> | ?]]]]);
  destruct (is_json lib e);
  (destruct (loads lib (get_data e)) as [v0| |];
   [destruct (dumps_returns lib (dummy_with v0)) eqn:Hd| |]);
  cbn -[PyStr.startswith];
  (split;
   [intros H; try discriminate H; repeat split; auto; eauto
   |intros (H1 & H2 & H3 & [H4 | (v & H4 & H5)]);
    try discriminate; try congruence]).
  all: injection H4 as ->; congruence.
Qed.

(** (X7) The answer depends on the request only through its method, its
    path as normalised by the URL map, whether its Content-Type declares
    JSON, and what [json.loads] does with its body: anything else in the
    Content-Type header and in the bytes of the body plays no part. *)
Theorem answer_depends_only_on (e1 e2 : Environ) (g : Store) :
  REQUEST_METHOD e1 = REQUEST_METHOD e2 ->
  path_part (PATH_INFO e1) = path_part (PATH_INFO e2) ->
  is_json lib e1 = is_json lib e2 ->
  loads lib (get_data e1) = loads lib (get_data e2) ->
  wsgi_app (app lib) e1 g = wsgi_app (app lib) e2 g.
Proof.
  exact (wsgi_app_congruence e1 e2 g).
Qed.

(** (X8) Any number of additional leading slashes in the path leaves the
    answer unchanged. *)
Theorem leading_slashes_ignored (n : nat) (m p : string)
    (ct : option string) (body : string) (g : Store) :
  wsgi_app (app lib)
    {| REQUEST_METHOD := m; PATH_INFO := slashes n (String "/" p);
       CONTENT_TYPE := ct; wsgi_input := body |} g =
  wsgi_app (app lib)
    {| REQUEST_METHOD := m; PATH_INFO := String "/" p;
       CONTENT_TYPE := ct; wsgi_input := body |} g.
Proof.
  apply wsgi_app_congruence; try reflexivity.
  cbn [PATH_INFO]. apply path_part_of_slashes.
Qed.

(** (X9) A HEAD request to either route is answered with status 200 and no
    body, whatever its Content-Type and body: [predict] takes its fallback
    branch and decodes nothing. *)
Theorem head_is_ok_and_empty (e : Environ) (g : Store) :
  REQUEST_METHOD e = "HEAD" ->
  path_part (PATH_INFO e) = "/health" \/
  path_part (PATH_INFO e) = "/predict" ->
  wsgi_app (app lib) e g =
    (g, Responds {| status_code := 200; data := NoData |}).
Proof.
  intros Hm Hp. rewrite wsgi_app_table, get_app_iter_table.
  unfold under_static, table, method. rewrite Hm.
  destruct Hp as [-> | ->]; reflexivity.
Qed.

(** (X10) An OPTIONS request to either route is answered by the framework
    with status 200 and no body; the view does not run, so a body that does
    not decode is not reported. *)
Theorem options_is_automatic (e : Environ) (g : Store) :
  method e = "OPTIONS" ->
  path_part (PATH_INFO e) = "/health" \/
  path_part (PATH_INFO e) = "/predict" ->
  wsgi_app (app lib) e g =
    (g, Responds {| status_code := 200; data := NoData |}).
Proof.
  intros Hm Hp. rewrite wsgi_app_table, get_app_iter_table.
  unfold under_static, table. rewrite Hm.
  destruct Hp as [-> | ->];
    destruct (String.eqb (REQUEST_METHOD e) "HEAD"); reflexivity.
Qed.

(** (X11) Every JSON answer of [/predict] has the member [prediction] with
    the value ["dummy"], whatever the request carries, an input with a
    [prediction] member of its own included. *)
Theorem prediction_is_always_dummy (e : Environ) (j : json) (g : Store) :
  path_part (PATH_INFO e) = "/predict" ->
  json_of (snd (wsgi_app (app lib) e g)) = Some j ->
  prediction_of (snd (wsgi_app (app lib) e g)) = Some (JStr "dummy").
Proof.
  intros Hp. unfold prediction_of.
  rewrite wsgi_app_table, get_app_iter_table. cbn [snd].
  unfold under_static. rewrite Hp.
  change (PyStr.startswith "/predict" "/static/") with false. cbv iota.
  destruct (String.eqb (REQUEST_METHOD e) "HEAD"); [discriminate|].
  revert Hp. table_cases e m p; intros Hp H; try discriminate Hp;
    try discriminate H; try congruence; reflexivity.
Qed.

(** (X12) [health] reads nothing of the request: two requests to [/health]
    with the same method get the same answer, whatever their Content-Type
    and body. *)
Theorem health_ignores_content (e1 e2 : Environ) (g : Store) :
  path_part (PATH_INFO e1) = "/health" ->
  path_part (PATH_INFO e2) = "/health" ->
  REQUEST_METHOD e1 = REQUEST_METHOD e2 ->
  wsgi_app (app lib) e1 g = wsgi_app (app lib) e2 g.
Proof.
  intros H1 H2 Hm. rewrite !wsgi_app_table.
  unfold under_static, get_app_iter, table, method.
  rewrite H1, H2, Hm. reflexivity.
Qed.

End Properties.

(** ** The theorems on concrete requests *)

Lemma predict_post_json_echo_witness :
  REQUEST_METHOD Examples.post_json = "POST" /\
  PATH_INFO Examples.post_json = "/predict" /\
  is_json Sample.lib Examples.post_json = true /\
  Sample.loads (get_data Examples.post_json) = Loaded x1 /\
  dumps_returns Sample.lib (dummy_with x1) = true /\
  wsgi_app sample_app Examples.post_json no_globals =
    (no_globals,
     Responds {| status_code := 200; data := JsonData (dummy_with x1) |}).
Proof.
  repeat (split; [reflexivity|]).
  apply (predict_post_json_echo Sample.lib Examples.post_json x1 no_globals);
    reflexivity.
Defined.

(** (C1, as stated) A POST to [/predict] whose body is the valid JSON text
    of [{"x": 1}] but whose Content-Type is [text/plain] is answered without
    the input field. *)
Lemma predict_post_json_as_text_not_echoed :
  REQUEST_METHOD Examples.post_json_as_text = "POST" /\
  PATH_INFO Examples.post_json_as_text = "/predict" /\
  Sample.loads (get_data Examples.post_json_as_text) = Loaded x1 /\
  answer sample_app Examples.post_json_as_text =
    Responds {| status_code := 200; data := JsonData dummy |} /\
  answer sample_app Examples.post_json_as_text <>
    Responds {| status_code := 200; data := JsonData (dummy_with x1) |}.
Proof.
  repeat (split; [reflexivity|]). vm_compute. discriminate.
Qed.



Lemma health_get_ok_witness :
  REQUEST_METHOD Examples.get_health = "GET" /\
  PATH_INFO Examples.get_health = "/health" /\
  wsgi_app sample_app Examples.get_health no_globals =
    (no_globals,
     Responds {| status_code := 200; data := JsonData status_ok |}).
Proof.
  repeat (split; [reflexivity|]).
  apply (health_get_ok Sample.lib Examples.get_health no_globals);
    reflexivity.
Defined.

(** (C3, as stated) A POST to [/health] is answered with status 405. *)
Lemma health_post_not_allowed :
  REQUEST_METHOD Examples.post_health = "POST" /\
  PATH_INFO Examples.post_health = "/health" /\
  answer sample_app Examples.post_health =
    Responds {| status_code := 405;
                data := ErrorPage (MethodNotAllowed ["HEAD"; "GET"; "OPTIONS"]) |} /\
  answer sample_app Examples.post_health <>
    Responds {| status_code := 200; data := JsonData status_ok |}.
Proof.
  repeat (split; [reflexivity|]). vm_compute. discriminate.
Qed.

Lemma predict_get_dummy_witness :
  REQUEST_METHOD Examples.get_predict = "GET" /\
  PATH_INFO Examples.get_predict = "/predict" /\
  wsgi_app sample_app Examples.get_predict no_globals =
    (no_globals, Responds {| status_code := 200; data := JsonData dummy |}) /\
  has_key "input" dummy = false.
Proof.
  repeat (split; [reflexivity|]).
  apply (predict_get_dummy Sample.lib Examples.get_predict no_globals);
    reflexivity.
Defined.

Lemma unknown_path_404_witness :
  path_part (PATH_INFO Examples.get_unknown) <> "/health" /\
  path_part (PATH_INFO Examples.get_unknown) <> "/predict" /\
  under_static Examples.get_unknown = false /\
  exists r, wsgi_app sample_app Examples.get_unknown no_globals =
              (no_globals, Responds r) /\
            status_code r = 404.
Proof.
  split; [discriminate|]. split; [discriminate|]. split; [reflexivity|].
  apply (unknown_path_404 Sample.lib Examples.get_unknown no_globals);
    [discriminate | discriminate | reflexivity].
Defined.

(** (C5, as stated) The path [//health] is neither [/health] nor
    [/predict], and a GET request to it is answered by the view [health]
    with status 200. *)
Lemma slash_slash_health_is_served :
  PATH_INFO Examples.get_slash_slash_health <> "/health" /\
  PATH_INFO Examples.get_slash_slash_health <> "/predict" /\
  answer sample_app Examples.get_slash_slash_health =
    Responds {| status_code := 200; data := JsonData status_ok |} /\
  forall r, answer sample_app Examples.get_slash_slash_health = Responds r ->
            status_code r <> 404.
Proof.
  split; [discriminate|]. split; [discriminate|]. split; [reflexivity|].
  intros r H. vm_compute in H. injection H as <-. discriminate.
Qed.

Lemma health_other_methods_405_witness :
  PATH_INFO Examples.post_health = "/health" /\
  In (REQUEST_METHOD Examples.post_health) ["POST"; "PUT"; "DELETE"] /\
  exists r, wsgi_app sample_app Examples.post_health no_globals =
              (no_globals, Responds r) /\
            status_code r = 405 /\ status_code r <> 200.
Proof.
  split; [reflexivity|]. split; [simpl; auto|].
  apply (health_other_methods_405 Sample.lib Examples.post_health no_globals
           eq_refl).
  simpl. auto.
Defined.

Lemma predict_post_bad_json_400_witness :
  REQUEST_METHOD Examples.post_bad_json = "POST" /\
  PATH_INFO Examples.post_bad_json = "/predict" /\
  is_json Sample.lib Examples.post_bad_json = true /\
  Sample.loads (get_data Examples.post_bad_json) = RaisesValueError /\
  get_json Sample.lib Examples.post_bad_json = Raise (Http BadRequest) /\
  predict Sample.lib Examples.post_bad_json no_globals =
    (no_globals, Raise (Http BadRequest)) /\
  wsgi_app sample_app Examples.post_bad_json no_globals =
    (no_globals, Responds (get_response BadRequest)) /\
  status_code (get_response BadRequest) = 400.
Proof.
  repeat (split; [reflexivity|]).
  apply (predict_post_bad_json_400 Sample.lib Examples.post_bad_json
           no_globals eq_refl eq_refl); reflexivity.
Defined.

(** (C9, as stated) A POST to [/predict] whose Content-Type is
    [application/json] and whose body is a thousand opening brackets, which
    is not JSON, makes the decoder raise [RecursionError]; the answer has
    status 500, not 400. *)
Lemma predict_post_deep_json_is_500 :
  REQUEST_METHOD Examples.post_deep_json = "POST" /\
  PATH_INFO Examples.post_deep_json = "/predict" /\
  is_json Sample.lib Examples.post_deep_json = true /\
  Sample.loads (get_data Examples.post_deep_json) = RaisesRecursionError /\
  answer sample_app Examples.post_deep_json =
    Responds {| status_code := 500; data := ErrorPage InternalServerError |} /\
  status_of (answer sample_app Examples.post_deep_json) <> Some 400.
Proof.
  repeat (split; [vm_compute; reflexivity|]).
  vm_compute. discriminate.
Qed.

Lemma predict_other_methods_405_witness :
  PATH_INFO Examples.put_predict = "/predict" /\
  In (REQUEST_METHOD Examples.put_predict) ["PUT"; "DELETE"] /\
  exists r, wsgi_app sample_app Examples.put_predict no_globals =
              (no_globals, Responds r) /\
            status_code r = 405.
Proof.
  split; [reflexivity|]. split; [simpl; auto|].
  apply (predict_other_methods_405 Sample.lib Examples.put_predict no_globals
           eq_refl).
  simpl. auto.
Defined.

Lemma input_echoed_iff_witness :
  under_static Examples.post_json = false /\
  input_of (snd (wsgi_app sample_app Examples.post_json no_globals)) = Some x1.
Proof.
  split; [reflexivity|].
  apply (proj2 (input_echoed_iff Sample.lib Examples.post_json x1 no_globals
                  eq_refl)).
  repeat split; reflexivity.
Defined.

Lemma status_is_one_of_five_witness :
  under_static Examples.post_deep_json = false /\
  status_of (snd (wsgi_app sample_app Examples.post_deep_json no_globals))
    = Some 500 /\
  In 500 [200; 400; 404; 405; 500].
Proof.
  split; [reflexivity|]. split; [vm_compute; reflexivity|].
  apply (status_is_one_of_five Sample.lib Examples.post_deep_json no_globals
           500); [reflexivity | vm_compute; reflexivity].
Defined.

Lemma not_found_iff_witness :
  under_static Examples.get_unknown = false /\
  status_of (snd (wsgi_app sample_app Examples.get_unknown no_globals))
    = Some 404.
Proof.
  split; [reflexivity|].
  apply (proj2 (not_found_iff Sample.lib Examples.get_unknown no_globals
                  eq_refl)).
  split; discriminate.
Defined.

Lemma method_not_allowed_iff_witness :
  under_static Examples.post_health = false /\
  status_of (snd (wsgi_app sample_app Examples.post_health no_globals))
    = Some 405.
Proof.
  split; [reflexivity|].
  apply (proj2 (method_not_allowed_iff Sample.lib Examples.post_health
                  no_globals eq_refl)).
  left. split; [reflexivity|].
  simpl. intros [H | [H | [H | []]]]; discriminate H.
Defined.

Lemma bad_request_iff_witness :
  under_static Examples.post_bad_json = false /\
  status_of (snd (wsgi_app sample_app Examples.post_bad_json no_globals))
    = Some 400.
Proof.
  split; [reflexivity|].
  apply (proj2 (bad_request_iff Sample.lib Examples.post_bad_json no_globals
                  eq_refl)).
  repeat split; reflexivity.
Defined.

Lemma server_error_iff_witness :
  under_static Examples.post_deep_json = false /\
  status_of (snd (wsgi_app sample_app Examples.post_deep_json no_globals))
    = Some 500.
Proof.
  split; [reflexivity|].
  apply (proj2 (server_error_iff Sample.lib Examples.post_deep_json no_globals
                  eq_refl)).
  repeat (split; [reflexivity|]).
  left. vm_compute. reflexivity.
Defined.

Lemma answer_depends_only_on_witness :
  REQUEST_METHOD Examples.post_json =
    REQUEST_METHOD
      (Examples.request "POST" "//predict"
         (Some "application/ld+json") ("  " ++ Examples.x_is_1)) /\
  path_part (PATH_INFO Examples.post_json) = path_part "//predict" /\
  is_json Sample.lib Examples.post_json =
    is_json Sample.lib
      (Examples.request "POST" "//predict"
         (Some "application/ld+json") ("  " ++ Examples.x_is_1)) /\
  Sample.loads (get_data Examples.post_json) =
    Sample.loads ("  " ++ Examples.x_is_1) /\
  wsgi_app sample_app Examples.post_json no_globals =
    wsgi_app sample_app
      (Examples.request "POST" "//predict"
         (Some "application/ld+json") ("  " ++ Examples.x_is_1))
      no_globals.
Proof.
  repeat (split; [reflexivity|]).
  apply (answer_depends_only_on Sample.lib); reflexivity.
Defined.

Lemma head_is_ok_and_empty_witness :
  REQUEST_METHOD
    (Examples.request "HEAD" "/predict" (Some "application/json") "{bad")
    = "HEAD" /\
  wsgi_app sample_app
    (Examples.request "HEAD" "/predict" (Some "application/json") "{bad")
    no_globals
    = (no_globals, Responds {| status_code := 200; data := NoData |}).
Proof.
  split; [reflexivity|].
  apply (head_is_ok_and_empty Sample.lib); [reflexivity|].
  right. reflexivity.
Defined.

Lemma options_is_automatic_witness :
  method
    (Examples.request "OPTIONS" "/predict" (Some "application/json") "{bad")
    = "OPTIONS" /\
  wsgi_app sample_app
    (Examples.request "OPTIONS" "/predict" (Some "application/json") "{bad")
    no_globals
    = (no_globals, Responds {| status_code := 200; data := NoData |}).
Proof.
  split; [reflexivity|].
  apply (options_is_automatic Sample.lib); [reflexivity|].
  right. reflexivity.
Defined.

Lemma prediction_is_always_dummy_witness :
  path_part
    (PATH_INFO
       (Examples.request "POST" "/predict" (Some "application/json")
          ("{" ++ Sample.quoted "prediction" ++ ":1}"))) = "/predict" /\
  json_of
    (snd (wsgi_app sample_app
            (Examples.request "POST" "/predict" (Some "application/json")
               ("{" ++ Sample.quoted "prediction" ++ ":1}")) no_globals))
    = Some (dummy_with (JDict [("prediction", JInt 1)])) /\
  prediction_of
    (snd (wsgi_app sample_app
            (Examples.request "POST" "/predict" (Some "application/json")
               ("{" ++ Sample.quoted "prediction" ++ ":1}")) no_globals))
    = Some (JStr "dummy").
Proof.
  repeat (split; [reflexivity|]).
  apply (prediction_is_always_dummy Sample.lib
           (Examples.request "POST" "/predict" (Some "application/json")
              ("{" ++ Sample.quoted "prediction" ++ ":1}"))
           (dummy_with (JDict [("prediction", JInt 1)])) no_globals);
    reflexivity.
Defined.

Lemma health_ignores_content_witness :
  path_part (PATH_INFO Examples.get_health) = "/health" /\
  path_part
    (PATH_INFO
       (Examples.request "GET" "/health" (Some "application/json") "{bad"))
    = "/health" /\
  wsgi_app sample_app Examples.get_health no_globals =
    wsgi_app sample_app
      (Examples.request "GET" "/health" (Some "application/json") "{bad")
      no_globals.
Proof.
  repeat (split; [reflexivity|]).
  apply (health_ignores_content Sample.lib); reflexivity.
Defined.
